(** * numba/dppy/initialize.py: registration of the "dppy" target

    A shallow embedding of the bootstrap module of the dppy (OpenCL) target
    and the properties its specification states about it.  The module only
    has side effects: it binds names in its own namespace, writes one key
    into mappings that the host compiler owns, and asks llvmlite to load
    two shared libraries.  The embedding therefore threads an explicit
    [World] through a state-and-exception monad and keeps a chronological
    trace of what the module does. *)

From stdpp Require Import gmap strings list fin_maps.

Open Scope string_scope.
Open Scope list_scope.

(** ** Python values *)

(** The [def] statements of the file, by the name they bind. *)
Inductive FunCode : Type :=
  | code_init_jit
  | code_initialize_all
  | code_initialize_ufunc
  | code_initialize_gufunc
  | code_init_vectorize
  | code_init_guvectorize.

(** Objects the file handles.  A function object is the code of its [def]
    together with the identity it got when the [def] was executed: running
    the same [def] twice yields two objects with the same code.  Everything
    that another module owns (a module object, a class found in it) is
    opaque. *)
Inductive PyObj : Type :=
  | PyNone
  | PyFunction (code : FunCode) (oid : nat)
  | PyModule (name : string)
  | PyExtern (module name : string).

Inductive Exn : Type :=
  | ModuleNotFoundError (module : string)
  | ImportError (module name : string)
  | NameError (name : string)
  | KeyError (key : string)
  | RuntimeError (msg : string)
  | OtherError (msg : string).

Inductive Outcome (A : Type) : Type :=
  | Ok (a : A)
  | Raise (e : Exn).
Arguments Ok {A} a.
Arguments Raise {A} e.

#[global] Instance FunCode_eq_dec : EqDecision FunCode.
Proof. solve_decision. Defined.
#[global] Instance PyObj_eq_dec : EqDecision PyObj.
Proof. solve_decision. Defined.

(** ** The world the module runs in *)

(** The three host-owned registries the file writes to:
    [numba.targets.registry.dispatcher_registry],
    [numba.npyufunc.Vectorize.target_registry] and
    [numba.npyufunc.GUVectorize.target_registry]. *)
Inductive Registry : Type :=
  | dispatcher_registry
  | Vectorize_target_registry
  | GUVectorize_target_registry.

#[global] Instance Registry_eq_dec : EqDecision Registry.
Proof. solve_decision. Defined.

Inductive Event : Type :=
  | EvImport (module : string)
  | EvImportFrom (module name : string)
  | EvSetItem (r : Registry) (key : string) (v : PyObj)
  | EvLoadLibrary (lib : string).

#[global] Instance Event_eq_dec : EqDecision Event.
Proof. solve_decision. Defined.

Record World : Type := mkWorld {
  (** the namespace of numba.dppy.initialize itself *)
  globals : gmap string PyObj;
  (** the [ondemand] mapping of each host registry *)
  dispatcher_ondemand : gmap string PyObj;
  vectorize_ondemand : gmap string PyObj;
  guvectorize_ondemand : gmap string PyObj;
  (** libraries resident in the process, in load order *)
  loaded : list string;
  (** what the file did so far, oldest first *)
  trace : list Event;
  (** identity of the next function object *)
  next_oid : nat
}.

Definition ondemand (r : Registry) (w : World) : gmap string PyObj :=
  match r with
  | dispatcher_registry => dispatcher_ondemand w
  | Vectorize_target_registry => vectorize_ondemand w
  | GUVectorize_target_registry => guvectorize_ondemand w
  end.

(** What lies outside the file: how an import resolves, whether the loader
    finds a library, and what calling a foreign object gives. *)
Record Env : Type := mkEnv {
  resolve_module : string -> Outcome PyObj;
  resolve_name : string -> string -> Outcome PyObj;
  dlopen : string -> option Exn;
  call_extern : PyObj -> Outcome PyObj
}.

(** ** State and exception monad *)

(** A raised exception keeps the world as it was when it was raised:
    Python undoes nothing. *)
Definition M (A : Type) : Type := World -> Outcome A * World.

Definition ret {A} (a : A) : M A := fun w => (Ok a, w).

Definition raise {A} (e : Exn) : M A := fun w => (Raise e, w).

Definition bind {A B} (m : M A) (k : A -> M B) : M B :=
  fun w =>
    match m w with
    | (Ok a, w') => k a w'
    | (Raise e, w') => (Raise e, w')
    end.

Declare Scope py_scope.
Delimit Scope py_scope with py.
Notation "x <- m ;; k" := (bind m (fun x => k))
  (at level 100, m at next level, right associativity) : py_scope.
Notation "m ;;; k" := (bind m (fun _ => k))
  (at level 100, right associativity) : py_scope.
Open Scope py_scope.

Definition lift {A} (o : Outcome A) : M A := fun w => (o, w).

Definition log (ev : Event) : M unit :=
  fun w =>
    (Ok tt,
     mkWorld (globals w) (dispatcher_ondemand w) (vectorize_ondemand w)
       (guvectorize_ondemand w) (loaded w) (trace w ++ [ev]) (next_oid w)).

(** ** Statements *)

(** [import module] *)
Definition import_ (env : Env) (module : string) : M PyObj :=
  log (EvImport module) ;;;
  lift (resolve_module env module).

(** [from module import name] *)
Definition import_from (env : Env) (module name : string) : M PyObj :=
  log (EvImportFrom module name) ;;;
  lift (resolve_name env module name).

(** Binding a name at module level. *)
Definition store_global (name : string) (v : PyObj) : M unit :=
  fun w =>
    (Ok tt,
     mkWorld (<[name := v]> (globals w)) (dispatcher_ondemand w)
       (vectorize_ondemand w) (guvectorize_ondemand w) (loaded w) (trace w)
       (next_oid w)).

(** Reading a module-level name from inside a function. *)
Definition load_global (name : string) : M PyObj :=
  fun w =>
    match globals w !! name with
    | Some v => (Ok v, w)
    | None => (Raise (NameError name), w)
    end.

(** Executing a [def]: a new function object. *)
Definition make_function (code : FunCode) : M PyObj :=
  fun w =>
    (Ok (PyFunction code (next_oid w)),
     mkWorld (globals w) (dispatcher_ondemand w) (vectorize_ondemand w)
       (guvectorize_ondemand w) (loaded w) (trace w) (S (next_oid w))).

Definition set_ondemand (r : Registry) (m : gmap string PyObj) (w : World)
  : World :=
  match r with
  | dispatcher_registry =>
      mkWorld (globals w) m (vectorize_ondemand w) (guvectorize_ondemand w)
        (loaded w) (trace w) (next_oid w)
  | Vectorize_target_registry =>
      mkWorld (globals w) (dispatcher_ondemand w) m (guvectorize_ondemand w)
        (loaded w) (trace w) (next_oid w)
  | GUVectorize_target_registry =>
      mkWorld (globals w) (dispatcher_ondemand w) (vectorize_ondemand w) m
        (loaded w) (trace w) (next_oid w)
  end.

(** Modelled from the spec: the item assignment of a host registry's
    [ondemand] mapping.  The mapping's type is declared by the host
    (numba.targets.registry, numba.npyufunc), not by this file; the spec
    describes it as a mapping from target name to zero-argument factory in
    which assigning to a key that is already present overwrites it and
    raises nothing. *)
Definition ondemand_setitem (r : Registry) (key : string) (v : PyObj)
  : M unit :=
  log (EvSetItem r key v) ;;;
  fun w => (Ok tt, set_ondemand r (<[key := v]> (ondemand r w)) w).

(** [ll.load_library_permanently(lib)]: the library stays resident when the
    loader finds it, otherwise llvmlite's error comes out. *)
Definition load_library_permanently (env : Env) (lib : string) : M unit :=
  load_global "ll" ;;;
  log (EvLoadLibrary lib) ;;;
  fun w =>
    match dlopen env lib with
    | None =>
        (Ok tt,
         mkWorld (globals w) (dispatcher_ondemand w) (vectorize_ondemand w)
           (guvectorize_ondemand w) (loaded w ++ [lib]) (trace w)
           (next_oid w))
    | Some e => (Raise e, w)
    end.

(** ** The functions of the file *)

Section Initialize.
Variable env : Env.

Definition init_jit : M PyObj :=
  DPPyDispatcher <- import_from env "numba.dppy.dispatcher" "DPPyDispatcher" ;;
  ret DPPyDispatcher.

Definition initialize_all : M PyObj :=
  import_from env "numba.targets.registry" "dispatcher_registry" ;;;
  f <- load_global "init_jit" ;;
  ondemand_setitem dispatcher_registry "dppy" f ;;;
  load_library_permanently env "libdpglue.so" ;;;
  load_library_permanently env "libOpenCL.so" ;;;
  ret PyNone.

Definition init_vectorize : M PyObj :=
  OclVectorize <- import_from env "numba.dppy.vectorizers" "OclVectorize" ;;
  ret OclVectorize.

Definition _initialize_ufunc : M PyObj :=
  import_from env "numba.npyufunc" "Vectorize" ;;;
  f <- make_function code_init_vectorize ;;
  ondemand_setitem Vectorize_target_registry "dppy" f ;;;
  ret PyNone.

Definition init_guvectorize : M PyObj :=
  OclGUFuncVectorize <-
    import_from env "numba.dppy.vectorizers" "OclGUFuncVectorize" ;;
  ret OclGUFuncVectorize.

Definition _initialize_gufunc : M PyObj :=
  import_from env "numba.npyufunc" "GUVectorize" ;;;
  f <- make_function code_init_guvectorize ;;
  ondemand_setitem GUVectorize_target_registry "dppy" f ;;;
  ret PyNone.

(** The body a function object runs when it is called. *)
Definition body (code : FunCode) : M PyObj :=
  match code with
  | code_init_jit => init_jit
  | code_initialize_all => initialize_all
  | code_initialize_ufunc => _initialize_ufunc
  | code_initialize_gufunc => _initialize_gufunc
  | code_init_vectorize => init_vectorize
  | code_init_guvectorize => init_guvectorize
  end.

(** Calling an object with no argument. *)
Definition call (f : PyObj) : M PyObj :=
  match f with
  | PyFunction code _ => body code
  | other => lift (call_extern env other)
  end.

(** What the host does on demand: fetch the factory registered under
    [key] and invoke it. *)
Definition invoke_ondemand (r : Registry) (key : string) : M PyObj :=
  fun w =>
    match ondemand r w !! key with
    | Some f => call f w
    | None => (Raise (KeyError key), w)
    end.

(** Evaluating the module: its top-level statements in order.  The
    [__future__] import binds its two names one after the other. *)
Definition module_body : M unit :=
  a <- import_from env "__future__" "absolute_import" ;;
  store_global "absolute_import" a ;;;
  p <- import_from env "__future__" "print_function" ;;
  store_global "print_function" p ;;;
  ll <- import_ env "llvmlite.binding" ;;
  store_global "ll" ll ;;;
  os <- import_ env "os" ;;
  store_global "os" os ;;;
  sysconfig <- import_from env "distutils" "sysconfig" ;;
  store_global "sysconfig" sysconfig ;;;
  f <- make_function code_init_jit ;;
  store_global "init_jit" f ;;;
  f <- make_function code_initialize_all ;;
  store_global "initialize_all" f ;;;
  f <- make_function code_initialize_ufunc ;;
  store_global "_initialize_ufunc" f ;;;
  f <- make_function code_initialize_gufunc ;;
  store_global "_initialize_gufunc" f.

End Initialize.

(** ** Observations *)

(** The events a computation adds to the trace when started in [w]. *)
Definition performed {A} (m : M A) (w : World) : list Event :=
  drop (length (trace w)) (trace (m w).2).

(** The library names passed to the loader, in call order. *)
Definition load_calls (evs : list Event) : list string :=
  omap (fun ev => match ev with EvLoadLibrary lib => Some lib | _ => None end)
    evs.

(** Does the event resolve [module] (by either form of import)? *)
Definition resolves (module : string) (ev : Event) : bool :=
  match ev with
  | EvImport m => bool_decide (m = module)
  | EvImportFrom m _ => bool_decide (m = module)
  | _ => false
  end.

(** Neither offload module is resolved by the event. *)
Definition leaves_offload_unresolved (ev : Event) : Prop :=
  resolves "numba.dppy.dispatcher" ev = false
  /\ resolves "numba.dppy.vectorizers" ev = false.

(** Does the event write to a registry or call the loader? *)
Definition registers_or_loads (ev : Event) : bool :=
  match ev with
  | EvSetItem _ _ _ => true
  | EvLoadLibrary _ => true
  | _ => false
  end.

(** [w'] differs from [w] on the registries at most in the key "dppy" of
    [target]. *)
Definition only_dppy_of (target : Registry) (w w' : World) : Prop :=
  (forall k, k ≠ "dppy" -> ondemand target w' !! k = ondemand target w !! k)
  /\ (forall r, r ≠ target -> ondemand r w' = ondemand r w).

(** Two objects are equivalent factories when they are the same object or
    function objects made from the same [def]. *)
Definition same_code (a b : PyObj) : Prop :=
  match a, b with
  | PyFunction c1 _, PyFunction c2 _ => c1 = c2
  | _, _ => a = b
  end.

Definition registry_equiv (m1 m2 : gmap string PyObj) : Prop :=
  forall k, option_Forall2 same_code (m1 !! k) (m2 !! k).

(** ** Sample environments *)

(** A host on which every import resolves and both libraries are found. *)
Definition host_with_opencl : Env :=
  {| resolve_module := fun m => Ok (PyModule m);
     resolve_name := fun m n => Ok (PyExtern m n);
     dlopen := fun _ => None;
     call_extern := fun _ => Raise (OtherError "not callable") |}.

(** The same host with no library on the search path. *)
Definition host_without_libraries : Env :=
  {| resolve_module := fun m => Ok (PyModule m);
     resolve_name := fun m n => Ok (PyExtern m n);
     dlopen := fun lib => Some (RuntimeError lib);
     call_extern := fun _ => Raise (OtherError "not callable") |}.

(** A process in which nothing has been imported, registered or loaded,
    apart from one target the host registered on its own. *)
Definition boot : World :=
  {| globals := ∅;
     dispatcher_ondemand := {[ "gpu" := PyExtern "numba.cuda" "init_jit" ]};
     vectorize_ondemand := ∅;
     guvectorize_ondemand := ∅;
     loaded := [];
     trace := [];
     next_oid := 0 |}.

(** [boot] after numba.dppy.initialize has been imported. *)
Definition started : World := (module_body host_with_opencl boot).2.

(** A host on which the listed modules cannot be imported and the listed
    libraries cannot be found. *)
Definition host_lacking (modules libs : list string) : Env :=
  {| resolve_module := fun m =>
       if existsb (String.eqb m) modules
       then Raise (ModuleNotFoundError m) else Ok (PyModule m);
     resolve_name := fun m n =>
       if existsb (String.eqb m) modules
       then Raise (ModuleNotFoundError m) else Ok (PyExtern m n);
     dlopen := fun lib =>
       if existsb (String.eqb lib) libs
       then Some (RuntimeError lib) else None;
     call_extern := fun _ => Raise (OtherError "not callable") |}.

(** The names the [def] statements at module level bind. *)
Definition module_functions : list string :=
  ["init_jit"; "initialize_all"; "_initialize_ufunc"; "_initialize_gufunc"].

(** The names the [import] statements at module level bind. *)
Definition module_imports : list string :=
  ["absolute_import"; "print_function"; "ll"; "os"; "sysconfig"].

(** ** Proof support *)

(** Symbolic execution: unfold the statements and the record projections,
    call by value, so that each intermediate world is normalised before it
    is passed on; maps, lists and strings stay symbolic. *)
Ltac step :=
  cbv [invoke_ondemand call body module_body initialize_all
       _initialize_ufunc _initialize_gufunc init_jit init_vectorize
       init_guvectorize load_library_permanently ondemand_setitem
       import_from import_ load_global store_global make_function log
       lift bind ret raise performed
       fst snd globals dispatcher_ondemand vectorize_ondemand
       guvectorize_ondemand loaded trace next_oid ondemand set_ondemand]
    in *.

Ltac open_worlds :=
  repeat match goal with w : World |- _ => destruct w end.

Ltac split_outcomes :=
  repeat (step;
    match goal with
    | |- context [resolve_name ?e ?m ?n] =>
        destruct (resolve_name e m n) eqn:?
    | |- context [resolve_module ?e ?m] =>
        destruct (resolve_module e m) eqn:?
    | |- context [dlopen ?e ?l] => destruct (dlopen e l) eqn:?
    | |- context [match @lookup _ _ _ _ ?n ?g with _ => _ end] =>
        is_var g; destruct (g !! n) eqn:?
    end);
  step.

Ltac run := open_worlds; split_outcomes.

Ltac tidy_trace :=
  run; rewrite <- ?app_assoc, ?drop_app_length; cbn [app].

Ltac show_prefix :=
  match goal with
  | |- ?l `prefix_of` ?k => exists (drop (length l) k); reflexivity
  end.

Ltac each_member H :=
  repeat (apply elem_of_cons in H as [-> | H]);
  try (by apply elem_of_nil in H).

(** ** Generic facts *)

Lemma drop_own_length {A} (l : list A) : drop (length l) l = [].
Proof. apply drop_all. Qed.

Lemma same_code_refl a : same_code a a.
Proof. destruct a; reflexivity. Qed.

Lemma registry_equiv_refl m : registry_equiv m m.
Proof.
  intros k. destruct (m !! k); constructor. apply same_code_refl.
Qed.

(** Equivalent factories cannot be told apart by calling them. *)
Lemma same_code_call env a b : same_code a b -> call env a = call env b.
Proof.
  destruct a, b; simpl; intros H; try discriminate; try congruence.
Qed.

(** The trace only grows: [performed] is exactly what was appended. *)
Lemma trace_extends env code w :
  trace (body env code w).2 = trace w ++ performed (body env code) w.
Proof.
  destruct code; tidy_trace; reflexivity.
Qed.

Lemma module_body_trace_extends env w :
  trace (module_body env w).2 = trace w ++ performed (module_body env) w.
Proof. tidy_trace; reflexivity. Qed.

(** Importing the module binds the names the functions later read. *)
Lemma module_body_binds env w w' :
  module_body env w = (Ok tt, w') ->
  globals w' !! "init_jit" = Some (PyFunction code_init_jit (next_oid w)) /\
  exists ll, resolve_module env "llvmlite.binding" = Ok ll /\
             globals w' !! "ll" = Some ll.
Proof.
  run; intros H; inversion H; subst; clear H.
  split; [ by simplify_map_eq | eexists; split; [ done | by simplify_map_eq ] ].
Qed.

(** No function of the file rebinds a module-level name. *)
Lemma body_globals env code w : globals (body env code w).2 = globals w.
Proof. destruct code; run; reflexivity. Qed.

(** What a complete run of [initialize_all] leaves behind. *)
Lemma initialize_all_ok env w f ll reg :
  globals w !! "init_jit" = Some f ->
  globals w !! "ll" = Some ll ->
  resolve_name env "numba.targets.registry" "dispatcher_registry" = Ok reg ->
  dlopen env "libdpglue.so" = None ->
  dlopen env "libOpenCL.so" = None ->
  initialize_all env w
  = (Ok PyNone,
     mkWorld (globals w) (<["dppy" := f]> (dispatcher_ondemand w))
       (vectorize_ondemand w) (guvectorize_ondemand w)
       (loaded w ++ ["libdpglue.so"; "libOpenCL.so"])
       (trace w
        ++ [ EvImportFrom "numba.targets.registry" "dispatcher_registry";
             EvSetItem dispatcher_registry "dppy" f;
             EvLoadLibrary "libdpglue.so";
             EvLoadLibrary "libOpenCL.so" ])
       (next_oid w)).
Proof.
  intros Hf Hll Hreg H1 H2. run; simplify_eq.
  rewrite <- !app_assoc. reflexivity.
Qed.

Lemma initialize_all_ok_inv env w v w1 :
  initialize_all env w = (Ok v, w1) ->
  exists f ll reg,
    globals w !! "init_jit" = Some f
    /\ globals w !! "ll" = Some ll
    /\ resolve_name env "numba.targets.registry" "dispatcher_registry"
       = Ok reg
    /\ dlopen env "libdpglue.so" = None
    /\ dlopen env "libOpenCL.so" = None.
Proof. run; intros H; simplify_eq; eauto 10. Qed.

(** What a complete run of [_initialize_ufunc] leaves behind. *)
Lemma initialize_ufunc_ok env w V :
  resolve_name env "numba.npyufunc" "Vectorize" = Ok V ->
  _initialize_ufunc env w
  = (Ok PyNone,
     mkWorld (globals w) (dispatcher_ondemand w)
       (<["dppy" := PyFunction code_init_vectorize (next_oid w)]>
          (vectorize_ondemand w))
       (guvectorize_ondemand w) (loaded w)
       (trace w
        ++ [ EvImportFrom "numba.npyufunc" "Vectorize";
             EvSetItem Vectorize_target_registry "dppy"
               (PyFunction code_init_vectorize (next_oid w)) ])
       (S (next_oid w))).
Proof. intros HV. run; simplify_eq. rewrite <- !app_assoc. reflexivity. Qed.

Lemma initialize_ufunc_ok_inv env w v w1 :
  _initialize_ufunc env w = (Ok v, w1) ->
  exists V, resolve_name env "numba.npyufunc" "Vectorize" = Ok V.
Proof. run; intros H; simplify_eq; eauto. Qed.

(** What a complete run of [_initialize_gufunc] leaves behind. *)
Lemma initialize_gufunc_ok env w V :
  resolve_name env "numba.npyufunc" "GUVectorize" = Ok V ->
  _initialize_gufunc env w
  = (Ok PyNone,
     mkWorld (globals w) (dispatcher_ondemand w) (vectorize_ondemand w)
       (<["dppy" := PyFunction code_init_guvectorize (next_oid w)]>
          (guvectorize_ondemand w))
       (loaded w)
       (trace w
        ++ [ EvImportFrom "numba.npyufunc" "GUVectorize";
             EvSetItem GUVectorize_target_registry "dppy"
               (PyFunction code_init_guvectorize (next_oid w)) ])
       (S (next_oid w))).
Proof. intros HV. run; simplify_eq. rewrite <- !app_assoc. reflexivity. Qed.

Lemma initialize_gufunc_ok_inv env w v w1 :
  _initialize_gufunc env w = (Ok v, w1) ->
  exists V, resolve_name env "numba.npyufunc" "GUVectorize" = Ok V.
Proof. run; intros H; simplify_eq; eauto. Qed.

Lemma registry_equiv_insert_insert (m : gmap string PyObj) k a b :
  same_code b a -> registry_equiv (<[k := b]> (<[k := a]> m)) (<[k := a]> m).
Proof.
  intros Hab j. destruct (decide (k = j)) as [-> | Hne].
  - rewrite !lookup_insert_eq. by constructor.
  - rewrite !lookup_insert_ne by done. apply registry_equiv_refl.
Qed.

(** ** Frame properties *)

(** C7. Each registration writes only the key "dppy" of the one registry it
    targets: [initialize_all] the dispatcher registry, [_initialize_ufunc]
    the elementwise registry, [_initialize_gufunc] the generalized one.
    Every other key of that registry and the whole of the other two
    registries are as before, whether the call returns or raises. *)
Theorem registration_frame env w :
  only_dppy_of dispatcher_registry w (initialize_all env w).2
  /\ only_dppy_of Vectorize_target_registry w (_initialize_ufunc env w).2
  /\ only_dppy_of GUVectorize_target_registry w (_initialize_gufunc env w).2.
Proof.
  unfold only_dppy_of.
  repeat split;
    first [ intros k Hk; run; try reflexivity; by rewrite lookup_insert_ne
          | intros r Hr; destruct r; try done; run; reflexivity ].
Qed.

Lemma registration_frame_witness :
  "gpu" ≠ "dppy"
  /\ Vectorize_target_registry ≠ dispatcher_registry
  /\ ondemand dispatcher_registry
       (initialize_all host_with_opencl started).2 !! "gpu"
     = ondemand dispatcher_registry started !! "gpu"
  /\ ondemand Vectorize_target_registry
       (initialize_all host_with_opencl started).2
     = ondemand Vectorize_target_registry started.
Proof.
  assert (Hk : "gpu" ≠ "dppy") by discriminate.
  assert (Hr : Vectorize_target_registry ≠ dispatcher_registry)
    by discriminate.
  split; [ exact Hk | split; [ exact Hr | split ] ].
  - exact (proj1 (proj1 (registration_frame host_with_opencl started))
             "gpu" Hk).
  - exact (proj2 (proj1 (registration_frame host_with_opencl started))
             Vectorize_target_registry Hr).
Defined.

(** C10. Evaluating the module registers nothing and loads nothing: the
    three registries and the resident libraries are untouched, and all the
    module does to the outside is a prefix of its five imports.  The [def]
    statements only bind names. *)
Theorem module_body_registers_nothing env w :
  (forall r, ondemand r (module_body env w).2 = ondemand r w)
  /\ loaded (module_body env w).2 = loaded w
  /\ trace (module_body env w).2 = trace w ++ performed (module_body env) w
  /\ performed (module_body env) w `prefix_of`
       [ EvImportFrom "__future__" "absolute_import";
         EvImportFrom "__future__" "print_function";
         EvImport "llvmlite.binding";
         EvImport "os";
         EvImportFrom "distutils" "sysconfig" ]
  /\ Forall (fun ev => registers_or_loads ev = false)
       (performed (module_body env) w).
Proof.
  split; [ intros r; destruct r; run; reflexivity | ].
  split; [ run; reflexivity | ].
  split; [ apply module_body_trace_extends | ].
  split.
  - tidy_trace; show_prefix.
  - tidy_trace; repeat constructor.
Qed.

(** ** The deferred factories *)

(** Calling a factory is running one import statement. *)
Lemma call_init_jit env oid w :
  call env (PyFunction code_init_jit oid) w
  = import_from env "numba.dppy.dispatcher" "DPPyDispatcher" w.
Proof. run; reflexivity. Qed.

Lemma call_init_vectorize env oid w :
  call env (PyFunction code_init_vectorize oid) w
  = import_from env "numba.dppy.vectorizers" "OclVectorize" w.
Proof. run; reflexivity. Qed.

Lemma call_init_guvectorize env oid w :
  call env (PyFunction code_init_guvectorize oid) w
  = import_from env "numba.dppy.vectorizers" "OclGUFuncVectorize" w.
Proof. run; reflexivity. Qed.

Lemma import_from_outcome env module name w :
  (import_from env module name w).1 = resolve_name env module name.
Proof. reflexivity. Qed.

(** C8. A factory performs its one import and hands on whatever that
    resolution produced: the outcome of the call is the outcome of the
    resolution itself, so a failure comes out as raised and a result comes
    out unchecked; the world only records the single import. *)
Theorem factory_outcome_is_resolution env oid w :
  call env (PyFunction code_init_jit oid) w
  = (resolve_name env "numba.dppy.dispatcher" "DPPyDispatcher",
     (log (EvImportFrom "numba.dppy.dispatcher" "DPPyDispatcher") w).2)
  /\ call env (PyFunction code_init_vectorize oid) w
     = (resolve_name env "numba.dppy.vectorizers" "OclVectorize",
        (log (EvImportFrom "numba.dppy.vectorizers" "OclVectorize") w).2)
  /\ call env (PyFunction code_init_guvectorize oid) w
     = (resolve_name env "numba.dppy.vectorizers" "OclGUFuncVectorize",
        (log (EvImportFrom "numba.dppy.vectorizers" "OclGUFuncVectorize")
           w).2).
Proof. repeat split; run; reflexivity. Qed.

(** C5. Registration is lazy.  None of [initialize_all],
    [_initialize_ufunc], [_initialize_gufunc] resolves numba.dppy.dispatcher
    or numba.dppy.vectorizers; the resolution of DPPyDispatcher,
    OclVectorize and OclGUFuncVectorize is what the registered factory does
    when it is invoked, and all it does. *)
Theorem registration_is_lazy env w :
  Forall leaves_offload_unresolved (performed (initialize_all env) w)
  /\ Forall leaves_offload_unresolved (performed (_initialize_ufunc env) w)
  /\ Forall leaves_offload_unresolved (performed (_initialize_gufunc env) w)
  /\ (forall oid,
        performed (call env (PyFunction code_init_jit oid)) w
        = [EvImportFrom "numba.dppy.dispatcher" "DPPyDispatcher"])
  /\ (forall oid,
        performed (call env (PyFunction code_init_vectorize oid)) w
        = [EvImportFrom "numba.dppy.vectorizers" "OclVectorize"])
  /\ (forall oid,
        performed (call env (PyFunction code_init_guvectorize oid)) w
        = [EvImportFrom "numba.dppy.vectorizers" "OclGUFuncVectorize"]).
Proof.
  repeat split; try intros oid; tidy_trace;
    rewrite ?drop_own_length; try reflexivity;
    repeat constructor.
Qed.

(** ** What gets registered *)

(** C2. After [initialize_all] the dispatcher registry's on-demand mapping
    binds "dppy" to the module's [init_jit] (whether or not the libraries
    then load), and invoking that entry returns the DPPyDispatcher type,
    that is, what numba.dppy.dispatcher resolves the name to. *)
Theorem initialize_all_registers_init_jit env w oid reg :
  globals w !! "init_jit" = Some (PyFunction code_init_jit oid) ->
  resolve_name env "numba.targets.registry" "dispatcher_registry" = Ok reg ->
  dispatcher_ondemand (initialize_all env w).2 !! "dppy"
  = Some (PyFunction code_init_jit oid)
  /\ forall DPPyDispatcher,
       resolve_name env "numba.dppy.dispatcher" "DPPyDispatcher"
       = Ok DPPyDispatcher ->
       (invoke_ondemand env dispatcher_registry "dppy"
          (initialize_all env w).2).1
       = Ok DPPyDispatcher.
Proof.
  intros Hf Hreg.
  assert (Hd : dispatcher_ondemand (initialize_all env w).2 !! "dppy"
               = Some (PyFunction code_init_jit oid)).
  { run; simplify_eq; apply lookup_insert_eq. }
  split; [ exact Hd | ].
  intros cls Hcls. unfold invoke_ondemand, ondemand. rewrite Hd.
  rewrite call_init_jit, import_from_outcome.
  exact Hcls.
Qed.

Lemma initialize_all_registers_init_jit_witness :
  dispatcher_ondemand (initialize_all host_with_opencl started).2 !! "dppy"
  = Some (PyFunction code_init_jit 0)
  /\ (invoke_ondemand host_with_opencl dispatcher_registry "dppy"
        (initialize_all host_with_opencl started).2).1
     = Ok (PyExtern "numba.dppy.dispatcher" "DPPyDispatcher").
Proof.
  assert (Hf : globals started !! "init_jit"
               = Some (PyFunction code_init_jit 0))
    by (vm_compute; reflexivity).
  assert (Hreg : resolve_name host_with_opencl "numba.targets.registry"
                   "dispatcher_registry"
                 = Ok (PyExtern "numba.targets.registry"
                         "dispatcher_registry"))
    by reflexivity.
  split.
  - exact (proj1 (initialize_all_registers_init_jit host_with_opencl started
                    0 _ Hf Hreg)).
  - exact (proj2 (initialize_all_registers_init_jit host_with_opencl started
                    0 _ Hf Hreg) _ eq_refl).
Defined.

(** C4. After [_initialize_ufunc] the elementwise registry binds "dppy" to
    a fresh [init_vectorize], and invoking the entry returns the
    OclVectorize type; after [_initialize_gufunc] the generalized registry
    binds "dppy" to a fresh [init_guvectorize], and invoking the entry
    returns the OclGUFuncVectorize type. *)
Theorem vectorizer_factories_registered env w :
  (forall Vectorize,
     resolve_name env "numba.npyufunc" "Vectorize" = Ok Vectorize ->
     vectorize_ondemand (_initialize_ufunc env w).2 !! "dppy"
     = Some (PyFunction code_init_vectorize (next_oid w))
     /\ forall OclVectorize,
          resolve_name env "numba.dppy.vectorizers" "OclVectorize"
          = Ok OclVectorize ->
          (invoke_ondemand env Vectorize_target_registry "dppy"
             (_initialize_ufunc env w).2).1
          = Ok OclVectorize)
  /\ (forall GUVectorize,
        resolve_name env "numba.npyufunc" "GUVectorize" = Ok GUVectorize ->
        guvectorize_ondemand (_initialize_gufunc env w).2 !! "dppy"
        = Some (PyFunction code_init_guvectorize (next_oid w))
        /\ forall OclGUFuncVectorize,
             resolve_name env "numba.dppy.vectorizers" "OclGUFuncVectorize"
             = Ok OclGUFuncVectorize ->
             (invoke_ondemand env GUVectorize_target_registry "dppy"
                (_initialize_gufunc env w).2).1
             = Ok OclGUFuncVectorize).
Proof.
  split.
  - intros V HV.
    assert (Hd : vectorize_ondemand (_initialize_ufunc env w).2 !! "dppy"
                 = Some (PyFunction code_init_vectorize (next_oid w))).
    { run; simplify_eq; apply lookup_insert_eq. }
    split; [ exact Hd | ].
    intros cls Hcls. unfold invoke_ondemand, ondemand. rewrite Hd.
    rewrite call_init_vectorize, import_from_outcome.
    exact Hcls.
  - intros V HV.
    assert (Hd : guvectorize_ondemand (_initialize_gufunc env w).2 !! "dppy"
                 = Some (PyFunction code_init_guvectorize (next_oid w))).
    { run; simplify_eq; apply lookup_insert_eq. }
    split; [ exact Hd | ].
    intros cls Hcls. unfold invoke_ondemand, ondemand. rewrite Hd.
    rewrite call_init_guvectorize, import_from_outcome.
    exact Hcls.
Qed.

Lemma vectorizer_factories_registered_witness :
  (vectorize_ondemand (_initialize_ufunc host_with_opencl started).2 !! "dppy"
   = Some (PyFunction code_init_vectorize (next_oid started))
   /\ (invoke_ondemand host_with_opencl Vectorize_target_registry "dppy"
         (_initialize_ufunc host_with_opencl started).2).1
      = Ok (PyExtern "numba.dppy.vectorizers" "OclVectorize"))
  /\ (guvectorize_ondemand (_initialize_gufunc host_with_opencl started).2
        !! "dppy"
      = Some (PyFunction code_init_guvectorize (next_oid started))
      /\ (invoke_ondemand host_with_opencl GUVectorize_target_registry "dppy"
            (_initialize_gufunc host_with_opencl started).2).1
         = Ok (PyExtern "numba.dppy.vectorizers" "OclGUFuncVectorize")).
Proof.
  pose proof (vectorizer_factories_registered host_with_opencl started)
    as [Hu Hg].
  split.
  - destruct (Hu _ eq_refl) as [Hd Hcall].
    split; [ exact Hd | exact (Hcall _ eq_refl) ].
  - destruct (Hg _ eq_refl) as [Hd Hcall].
    split; [ exact Hd | exact (Hcall _ eq_refl) ].
Defined.

(** ** Library loading *)

(** C3. [initialize_all] calls the permanent loader with "libdpglue.so" and
    "libOpenCL.so" and with no other name: what it passes is always a
    prefix of these two, and when it returns it has made exactly these two
    calls, in this order, and both libraries are resident in the process. *)
Theorem initialize_all_load_calls env w :
  load_calls (performed (initialize_all env) w)
    `prefix_of` ["libdpglue.so"; "libOpenCL.so"]
  /\ forall v w',
       initialize_all env w = (Ok v, w') ->
       load_calls (performed (initialize_all env) w)
       = ["libdpglue.so"; "libOpenCL.so"]
       /\ loaded w' = loaded w ++ ["libdpglue.so"; "libOpenCL.so"].
Proof.
  split.
  - tidy_trace; rewrite ?drop_own_length; show_prefix.
  - intros v w'. tidy_trace; intros H; inversion H; subst; clear H.
    split; reflexivity.
Qed.

Lemma initialize_all_load_calls_witness :
  load_calls (performed (initialize_all host_with_opencl) started)
  = ["libdpglue.so"; "libOpenCL.so"]
  /\ loaded (initialize_all host_with_opencl started).2
     = loaded started ++ ["libdpglue.so"; "libOpenCL.so"].
Proof.
  assert (Hrun : initialize_all host_with_opencl started
                 = (Ok PyNone, (initialize_all host_with_opencl started).2))
    by (vm_compute; reflexivity).
  exact (proj2 (initialize_all_load_calls host_with_opencl started) _ _ Hrun).
Defined.

(** C9. The steps of [initialize_all] come in a fixed order: the import of
    the registry, the assignment of "dppy", the load of "libdpglue.so", the
    load of "libOpenCL.so".  A run performs a prefix of this sequence and
    the whole of it when it returns.  If loading "libdpglue.so" raises, the
    call raises that error, "libOpenCL.so" is not passed to the loader,
    nothing has become resident, and "dppy" is already registered. *)
Theorem initialize_all_order env w f :
  globals w !! "init_jit" = Some f ->
  performed (initialize_all env) w
    `prefix_of`
      [ EvImportFrom "numba.targets.registry" "dispatcher_registry";
        EvSetItem dispatcher_registry "dppy" f;
        EvLoadLibrary "libdpglue.so";
        EvLoadLibrary "libOpenCL.so" ]
  /\ (forall v,
        (initialize_all env w).1 = Ok v ->
        performed (initialize_all env) w
        = [ EvImportFrom "numba.targets.registry" "dispatcher_registry";
            EvSetItem dispatcher_registry "dppy" f;
            EvLoadLibrary "libdpglue.so";
            EvLoadLibrary "libOpenCL.so" ])
  /\ (forall reg ll e,
        resolve_name env "numba.targets.registry" "dispatcher_registry"
        = Ok reg ->
        globals w !! "ll" = Some ll ->
        dlopen env "libdpglue.so" = Some e ->
        (initialize_all env w).1 = Raise e
        /\ performed (initialize_all env) w
           = [ EvImportFrom "numba.targets.registry" "dispatcher_registry";
               EvSetItem dispatcher_registry "dppy" f;
               EvLoadLibrary "libdpglue.so" ]
        /\ loaded (initialize_all env w).2 = loaded w
        /\ dispatcher_ondemand (initialize_all env w).2 !! "dppy" = Some f).
Proof.
  intros Hf. split; [ | split ].
  - tidy_trace; simplify_eq; show_prefix.
  - intros v. tidy_trace; intros H; simplify_eq; reflexivity.
  - intros reg ll e Hreg Hll He.
    repeat split; tidy_trace; simplify_eq; try reflexivity;
      apply lookup_insert_eq.
Qed.

Lemma initialize_all_order_witness :
  (initialize_all host_without_libraries started).1
  = Raise (RuntimeError "libdpglue.so")
  /\ performed (initialize_all host_without_libraries) started
     = [ EvImportFrom "numba.targets.registry" "dispatcher_registry";
         EvSetItem dispatcher_registry "dppy" (PyFunction code_init_jit 0);
         EvLoadLibrary "libdpglue.so" ]
  /\ loaded (initialize_all host_without_libraries started).2
     = loaded started
  /\ dispatcher_ondemand (initialize_all host_without_libraries started).2
       !! "dppy"
     = Some (PyFunction code_init_jit 0).
Proof.
  assert (Hf : globals started !! "init_jit"
               = Some (PyFunction code_init_jit 0))
    by (vm_compute; reflexivity).
  assert (Hll : globals started !! "ll" = Some (PyModule "llvmlite.binding"))
    by (vm_compute; reflexivity).
  exact (proj2 (proj2 (initialize_all_order host_without_libraries started _
                         Hf))
           _ _ _ eq_refl Hll eq_refl).
Defined.

(** ** Failure of a load *)

(** C1, as stated, fails: with no library on the search path
    [initialize_all] raises the loader's error, and the "dppy" entry, which
    was absent before the call, is registered after it. *)
Lemma failed_load_keeps_dppy_registered :
  dlopen host_without_libraries "libdpglue.so"
  = Some (RuntimeError "libdpglue.so")
  /\ (initialize_all host_without_libraries started).1
     = Raise (RuntimeError "libdpglue.so")
  /\ dispatcher_ondemand started !! "dppy" = None
  /\ dispatcher_ondemand (initialize_all host_without_libraries started).2
       !! "dppy"
     = Some (PyFunction code_init_jit 0)
  /\ dispatcher_ondemand (initialize_all host_without_libraries started).2
     ≠ dispatcher_ondemand started.
Proof.
  assert (Hbefore : dispatcher_ondemand started !! "dppy" = None)
    by (vm_compute; reflexivity).
  assert (Hafter :
            dispatcher_ondemand
              (initialize_all host_without_libraries started).2 !! "dppy"
            = Some (PyFunction code_init_jit 0))
    by (vm_compute; reflexivity).
  split; [ reflexivity | ].
  split; [ vm_compute; reflexivity | ].
  split; [ exact Hbefore | ].
  split; [ exact Hafter | ].
  intros Heq. rewrite Heq, Hbefore in Hafter. discriminate Hafter.
Qed.

(** C1, amended.  When one of the two libraries cannot be loaded,
    [initialize_all] raises the loader's error as it is, and nothing is
    undone: the dispatcher registry is the previous one with "dppy" bound
    to [init_jit]; the other two registries are as before. *)
Theorem initialize_all_load_failure env w f reg ll e :
  globals w !! "init_jit" = Some f ->
  resolve_name env "numba.targets.registry" "dispatcher_registry" = Ok reg ->
  globals w !! "ll" = Some ll ->
  dlopen env "libdpglue.so" = Some e
  \/ (dlopen env "libdpglue.so" = None /\ dlopen env "libOpenCL.so" = Some e) ->
  (initialize_all env w).1 = Raise e
  /\ dispatcher_ondemand (initialize_all env w).2
     = <["dppy" := f]> (dispatcher_ondemand w)
  /\ vectorize_ondemand (initialize_all env w).2 = vectorize_ondemand w
  /\ guvectorize_ondemand (initialize_all env w).2 = guvectorize_ondemand w.
Proof.
  intros Hf Hreg Hll [He | [He1 He2]];
    repeat split; run; simplify_eq; reflexivity.
Qed.

Lemma initialize_all_load_failure_witness :
  (initialize_all host_without_libraries started).1
  = Raise (RuntimeError "libdpglue.so")
  /\ dispatcher_ondemand (initialize_all host_without_libraries started).2
     = <["dppy" := PyFunction code_init_jit 0]> (dispatcher_ondemand started)
  /\ vectorize_ondemand (initialize_all host_without_libraries started).2
     = vectorize_ondemand started
  /\ guvectorize_ondemand (initialize_all host_without_libraries started).2
     = guvectorize_ondemand started.
Proof.
  assert (Hf : globals started !! "init_jit"
               = Some (PyFunction code_init_jit 0))
    by (vm_compute; reflexivity).
  assert (Hll : globals started !! "ll" = Some (PyModule "llvmlite.binding"))
    by (vm_compute; reflexivity).
  exact (initialize_all_load_failure host_without_libraries started _ _ _ _
           Hf eq_refl Hll (or_introl eq_refl)).
Defined.

(** ** Repeated registration *)

(** C6. Running an operation again after it succeeded succeeds again and
    leaves the registries as the first run left them.  The second run of
    [initialize_all] assigns "dppy" again, to the very same [init_jit];
    the second run of [_initialize_ufunc] and of [_initialize_gufunc]
    overwrites "dppy" with a new function object made from the same
    [def], an equivalent factory; calling the target initializer touches
    no registry at all.  No duplicate-key error arises because item
    assignment on the on-demand mapping overwrites. *)
Theorem registration_idempotent env w :
  (forall v w1,
     initialize_all env w = (Ok v, w1) ->
     exists w2 f,
       initialize_all env w1 = (Ok PyNone, w2)
       /\ globals w !! "init_jit" = Some f
       /\ dispatcher_ondemand w1 !! "dppy" = Some f
       /\ EvSetItem dispatcher_registry "dppy" f
            ∈ performed (initialize_all env) w1
       /\ dispatcher_ondemand w2 = <["dppy" := f]> (dispatcher_ondemand w1)
       /\ dispatcher_ondemand w2 !! "dppy" = Some f
       /\ forall r, ondemand r w2 = ondemand r w1)
  /\ (forall v w1,
        _initialize_ufunc env w = (Ok v, w1) ->
        exists w2 f1 f2,
          _initialize_ufunc env w1 = (Ok PyNone, w2)
          /\ vectorize_ondemand w1 !! "dppy" = Some f1
          /\ same_code f1 f2
          /\ vectorize_ondemand w2 = <["dppy" := f2]> (vectorize_ondemand w1)
          /\ (forall r, registry_equiv (ondemand r w2) (ondemand r w1))
          /\ EvSetItem Vectorize_target_registry "dppy" f2
               ∈ performed (_initialize_ufunc env) w1
          /\ vectorize_ondemand w2 !! "dppy" = Some f2)
  /\ (forall v w1,
        _initialize_gufunc env w = (Ok v, w1) ->
        exists w2 f1 f2,
          _initialize_gufunc env w1 = (Ok PyNone, w2)
          /\ guvectorize_ondemand w1 !! "dppy" = Some f1
          /\ same_code f1 f2
          /\ guvectorize_ondemand w2
             = <["dppy" := f2]> (guvectorize_ondemand w1)
          /\ (forall r, registry_equiv (ondemand r w2) (ondemand r w1))
          /\ EvSetItem GUVectorize_target_registry "dppy" f2
               ∈ performed (_initialize_gufunc env) w1
          /\ guvectorize_ondemand w2 !! "dppy" = Some f2)
  /\ (forall oid v w1,
        call env (PyFunction code_init_jit oid) w = (Ok v, w1) ->
        exists w2,
          call env (PyFunction code_init_jit oid) w1 = (Ok v, w2)
          /\ (forall r, ondemand r w2 = ondemand r w1)
          /\ forall r, ondemand r w1 = ondemand r w).
Proof.
  split; [ | split; [ | split ] ].
  - intros v w1 H.
    destruct (initialize_all_ok_inv env w v w1 H)
      as (f & ll & reg & Hf & Hll & Hreg & H1 & H2).
    rewrite (initialize_all_ok env w f ll reg Hf Hll Hreg H1 H2) in H.
    injection H as _ Hw1.
    assert (Hf1 : globals w1 !! "init_jit" = Some f)
      by (rewrite <- Hw1; exact Hf).
    assert (Hll1 : globals w1 !! "ll" = Some ll)
      by (rewrite <- Hw1; exact Hll).
    eexists _, f. unfold performed.
    rewrite (initialize_all_ok env w1 f ll reg Hf1 Hll1 Hreg H1 H2).
    subst w1.
    cbn [snd globals dispatcher_ondemand vectorize_ondemand
         guvectorize_ondemand loaded trace next_oid].
    split; [ reflexivity | ].
    split; [ exact Hf | ].
    split; [ apply lookup_insert_eq | ].
    split.
    { rewrite drop_app_length.
      apply elem_of_cons; right. apply elem_of_cons; left. reflexivity. }
    split; [ reflexivity | ].
    split; [ apply lookup_insert_eq | ].
    intros r; destruct r; cbn [ondemand dispatcher_ondemand
      vectorize_ondemand guvectorize_ondemand]; try reflexivity.
    apply insert_insert_eq.
  - intros v w1 H.
    destruct (initialize_ufunc_ok_inv env w v w1 H) as [V HV].
    rewrite (initialize_ufunc_ok env w V HV) in H.
    inversion H; subst; clear H.
    eexists _, _, (PyFunction code_init_vectorize _). unfold performed.
    rewrite (initialize_ufunc_ok env _ V HV).
    cbn [snd globals dispatcher_ondemand vectorize_ondemand
         guvectorize_ondemand loaded trace next_oid].
    split; [ reflexivity | ].
    split; [ apply lookup_insert_eq | ].
    split; [ exact eq_refl | ].
    split; [ reflexivity | ].
    split.
    { intros r; destruct r; cbn [ondemand dispatcher_ondemand
        vectorize_ondemand guvectorize_ondemand];
        try apply registry_equiv_refl.
      apply registry_equiv_insert_insert. exact eq_refl. }
    split.
    { rewrite drop_app_length.
      apply elem_of_cons; right. apply elem_of_cons; left. reflexivity. }
    apply lookup_insert_eq.
  - intros v w1 H.
    destruct (initialize_gufunc_ok_inv env w v w1 H) as [V HV].
    rewrite (initialize_gufunc_ok env w V HV) in H.
    inversion H; subst; clear H.
    eexists _, _, (PyFunction code_init_guvectorize _). unfold performed.
    rewrite (initialize_gufunc_ok env _ V HV).
    cbn [snd globals dispatcher_ondemand vectorize_ondemand
         guvectorize_ondemand loaded trace next_oid].
    split; [ reflexivity | ].
    split; [ apply lookup_insert_eq | ].
    split; [ exact eq_refl | ].
    split; [ reflexivity | ].
    split.
    { intros r; destruct r; cbn [ondemand dispatcher_ondemand
        vectorize_ondemand guvectorize_ondemand];
        try apply registry_equiv_refl.
      apply registry_equiv_insert_insert. exact eq_refl. }
    split.
    { rewrite drop_app_length.
      apply elem_of_cons; right. apply elem_of_cons; left. reflexivity. }
    apply lookup_insert_eq.
  - intros oid v w1. run; intros H; inversion H; subst; clear H.
    eexists. split; [ reflexivity | ].
    split; intros r; destruct r; reflexivity.
Qed.

Lemma registration_idempotent_witness :
  (exists w2 f,
     initialize_all host_with_opencl
       (initialize_all host_with_opencl started).2
     = (Ok PyNone, w2)
     /\ globals started !! "init_jit" = Some f
     /\ dispatcher_ondemand (initialize_all host_with_opencl started).2
          !! "dppy"
        = Some f
     /\ EvSetItem dispatcher_registry "dppy" f
          ∈ performed (initialize_all host_with_opencl)
              (initialize_all host_with_opencl started).2
     /\ dispatcher_ondemand w2
        = <["dppy" := f]>
            (dispatcher_ondemand (initialize_all host_with_opencl started).2)
     /\ dispatcher_ondemand w2 !! "dppy" = Some f
     /\ forall r,
          ondemand r w2
          = ondemand r (initialize_all host_with_opencl started).2)
  /\ (exists w2 f1 f2,
        _initialize_ufunc host_with_opencl
          (_initialize_ufunc host_with_opencl started).2
        = (Ok PyNone, w2)
        /\ vectorize_ondemand (_initialize_ufunc host_with_opencl started).2
             !! "dppy"
           = Some f1
        /\ same_code f1 f2
        /\ vectorize_ondemand w2
           = <["dppy" := f2]>
               (vectorize_ondemand
                  (_initialize_ufunc host_with_opencl started).2)
        /\ (forall r,
              registry_equiv (ondemand r w2)
                (ondemand r (_initialize_ufunc host_with_opencl started).2))
        /\ EvSetItem Vectorize_target_registry "dppy" f2
             ∈ performed (_initialize_ufunc host_with_opencl)
                 (_initialize_ufunc host_with_opencl started).2
        /\ vectorize_ondemand w2 !! "dppy" = Some f2).
Proof.
  assert (Hall : initialize_all host_with_opencl started
                 = (Ok PyNone, (initialize_all host_with_opencl started).2))
    by (vm_compute; reflexivity).
  assert (Hufunc : _initialize_ufunc host_with_opencl started
                   = (Ok PyNone,
                      (_initialize_ufunc host_with_opencl started).2))
    by (vm_compute; reflexivity).
  split.
  - exact (proj1 (registration_idempotent host_with_opencl started) _ _ Hall).
  - exact (proj1 (proj2 (registration_idempotent host_with_opencl started))
             _ _ Hufunc).
Defined.

(** ** Further properties of the module *)

Lemma module_body_loaded env w : loaded (module_body env w).2 = loaded w.
Proof. run; reflexivity. Qed.

Lemma module_body_ondemand env w r :
  ondemand r (module_body env w).2 = ondemand r w.
Proof. destruct r; run; reflexivity. Qed.

(** X1. When the import of the dispatcher registry fails, [initialize_all]
    raises that error at once: nothing is registered, no library is
    passed to the loader, and the failed import is all it did. *)
Theorem initialize_all_registry_import_failure env w e :
  resolve_name env "numba.targets.registry" "dispatcher_registry" = Raise e ->
  (initialize_all env w).1 = Raise e
  /\ (forall r, ondemand r (initialize_all env w).2 = ondemand r w)
  /\ loaded (initialize_all env w).2 = loaded w
  /\ performed (initialize_all env) w
     = [EvImportFrom "numba.targets.registry" "dispatcher_registry"].
Proof.
  intros He.
  split; [ run; simplify_eq; reflexivity | ].
  split; [ intros r; destruct r; run; simplify_eq; reflexivity | ].
  split; [ run; simplify_eq; reflexivity | ].
  tidy_trace; simplify_eq; reflexivity.
Qed.

Lemma initialize_all_registry_import_failure_witness :
  (initialize_all (host_lacking ["numba.targets.registry"] []) started).1
  = Raise (ModuleNotFoundError "numba.targets.registry")
  /\ (forall r,
        ondemand r
          (initialize_all (host_lacking ["numba.targets.registry"] [])
             started).2
        = ondemand r started)
  /\ loaded
       (initialize_all (host_lacking ["numba.targets.registry"] [])
          started).2
     = loaded started
  /\ performed (initialize_all (host_lacking ["numba.targets.registry"] []))
       started
     = [EvImportFrom "numba.targets.registry" "dispatcher_registry"].
Proof.
  exact (initialize_all_registry_import_failure
           (host_lacking ["numba.targets.registry"] []) started _ eq_refl).
Defined.

(** X2. When the import of the vectorizer class fails, [_initialize_ufunc]
    (respectively [_initialize_gufunc]) raises that error before its [def]
    runs: no registry changes and no function object is created. *)
Theorem vectorizer_class_import_failure env w :
  (forall e,
     resolve_name env "numba.npyufunc" "Vectorize" = Raise e ->
     (_initialize_ufunc env w).1 = Raise e
     /\ (forall r, ondemand r (_initialize_ufunc env w).2 = ondemand r w)
     /\ next_oid (_initialize_ufunc env w).2 = next_oid w)
  /\ (forall e,
        resolve_name env "numba.npyufunc" "GUVectorize" = Raise e ->
        (_initialize_gufunc env w).1 = Raise e
        /\ (forall r, ondemand r (_initialize_gufunc env w).2 = ondemand r w)
        /\ next_oid (_initialize_gufunc env w).2 = next_oid w).
Proof.
  split; intros e He;
    (split; [ run; simplify_eq; reflexivity | ]);
    (split; [ intros r; destruct r; run; simplify_eq; reflexivity | ]);
    run; simplify_eq; reflexivity.
Qed.

Lemma vectorizer_class_import_failure_witness :
  (_initialize_ufunc (host_lacking ["numba.npyufunc"] []) started).1
  = Raise (ModuleNotFoundError "numba.npyufunc")
  /\ (_initialize_gufunc (host_lacking ["numba.npyufunc"] []) started).1
     = Raise (ModuleNotFoundError "numba.npyufunc").
Proof.
  pose proof (vectorizer_class_import_failure
                (host_lacking ["numba.npyufunc"] []) started) as [Hu Hg].
  split.
  - exact (proj1 (Hu _ eq_refl)).
  - exact (proj1 (Hg _ eq_refl)).
Defined.

(** X3. [initialize_all] returns normally exactly when the registry import
    resolves, the module-level names [init_jit] and [ll] are bound, and the
    loader finds both libraries; what it then returns is [None]. *)
Theorem initialize_all_succeeds_iff env w :
  ((exists v, (initialize_all env w).1 = Ok v)
   <-> ((exists reg,
           resolve_name env "numba.targets.registry" "dispatcher_registry"
           = Ok reg)
        /\ is_Some (globals w !! "init_jit")
        /\ is_Some (globals w !! "ll")
        /\ dlopen env "libdpglue.so" = None
        /\ dlopen env "libOpenCL.so" = None))
  /\ forall v, (initialize_all env w).1 = Ok v -> v = PyNone.
Proof.
  split; [ split | ].
  - run; intros [v Hv]; simplify_eq; repeat split; eauto.
  - intros ([reg Hreg] & [f Hf] & [l Hl] & H1 & H2).
    rewrite (initialize_all_ok env w f l reg Hf Hl Hreg H1 H2). eauto.
  - intros v. run; intros Hv; simplify_eq; reflexivity.
Qed.

Lemma initialize_all_succeeds_iff_witness :
  (exists v, (initialize_all host_with_opencl started).1 = Ok v)
  /\ (initialize_all host_with_opencl started).1 = Ok PyNone.
Proof.
  assert (Hf : globals started !! "init_jit"
               = Some (PyFunction code_init_jit 0))
    by (vm_compute; reflexivity).
  assert (Hll : globals started !! "ll" = Some (PyModule "llvmlite.binding"))
    by (vm_compute; reflexivity).
  pose proof (initialize_all_succeeds_iff host_with_opencl started)
    as [Hiff Hnone].
  assert (Hex : exists v, (initialize_all host_with_opencl started).1 = Ok v).
  { apply (proj2 Hiff).
    split; [ eexists; reflexivity | ].
    split; [ eexists; exact Hf | ].
    split; [ eexists; exact Hll | ].
    split; reflexivity. }
  split; [ exact Hex | ].
  destruct Hex as [v Hv]. rewrite Hv. f_equal. exact (Hnone v Hv).
Defined.

(** X4. When "libdpglue.so" loads and "libOpenCL.so" does not,
    [initialize_all] raises the loader's error after both calls were made:
    the glue library stays resident and "dppy" stays registered. *)
Theorem second_library_failure env w f ll reg e :
  globals w !! "init_jit" = Some f ->
  globals w !! "ll" = Some ll ->
  resolve_name env "numba.targets.registry" "dispatcher_registry" = Ok reg ->
  dlopen env "libdpglue.so" = None ->
  dlopen env "libOpenCL.so" = Some e ->
  (initialize_all env w).1 = Raise e
  /\ loaded (initialize_all env w).2 = loaded w ++ ["libdpglue.so"]
  /\ load_calls (performed (initialize_all env) w)
     = ["libdpglue.so"; "libOpenCL.so"]
  /\ dispatcher_ondemand (initialize_all env w).2 !! "dppy" = Some f.
Proof.
  intros Hf Hll Hreg H1 H2.
  split; [ run; simplify_eq; reflexivity | ].
  split; [ run; simplify_eq; reflexivity | ].
  split; [ tidy_trace; simplify_eq; reflexivity | ].
  run; simplify_eq; apply lookup_insert_eq.
Qed.

Lemma second_library_failure_witness :
  (initialize_all (host_lacking [] ["libOpenCL.so"]) started).1
  = Raise (RuntimeError "libOpenCL.so")
  /\ loaded (initialize_all (host_lacking [] ["libOpenCL.so"]) started).2
     = loaded started ++ ["libdpglue.so"]
  /\ load_calls
       (performed (initialize_all (host_lacking [] ["libOpenCL.so"]))
          started)
     = ["libdpglue.so"; "libOpenCL.so"]
  /\ dispatcher_ondemand
       (initialize_all (host_lacking [] ["libOpenCL.so"]) started).2
       !! "dppy"
     = Some (PyFunction code_init_jit 0).
Proof.
  assert (Hf : globals started !! "init_jit"
               = Some (PyFunction code_init_jit 0))
    by (vm_compute; reflexivity).
  assert (Hll : globals started !! "ll" = Some (PyModule "llvmlite.binding"))
    by (vm_compute; reflexivity).
  exact (second_library_failure (host_lacking [] ["libOpenCL.so"]) started
           _ _ _ _ Hf Hll eq_refl eq_refl eq_refl).
Defined.

(** ** Evaluating the module *)

(** X5. When evaluating the module raises, the error is that of one of
    its five imports, and no [def] has run: none of the four function
    names has been bound and no function object has been created. *)
Theorem module_body_import_failure env w e :
  (module_body env w).1 = Raise e ->
  (resolve_name env "__future__" "absolute_import" = Raise e
   \/ resolve_name env "__future__" "print_function" = Raise e
   \/ resolve_module env "llvmlite.binding" = Raise e
   \/ resolve_module env "os" = Raise e
   \/ resolve_name env "distutils" "sysconfig" = Raise e)
  /\ (forall name,
        name ∈ module_functions ->
        globals (module_body env w).2 !! name = globals w !! name)
  /\ next_oid (module_body env w).2 = next_oid w.
Proof.
  unfold module_functions. split; [ | split ].
  - revert H. run; intros H; simplify_eq; tauto.
  - intros name Hin. revert H. run; intros H; simplify_eq;
      each_member Hin; by rewrite ?lookup_insert_ne.
  - revert H. run; intros H; simplify_eq; reflexivity.
Qed.

Lemma module_body_import_failure_witness :
  (module_body (host_lacking ["distutils"] []) boot).1
  = Raise (ModuleNotFoundError "distutils")
  /\ globals (module_body (host_lacking ["distutils"] []) boot).2
       !! "initialize_all"
     = globals boot !! "initialize_all"
  /\ next_oid (module_body (host_lacking ["distutils"] []) boot).2
     = next_oid boot.
Proof.
  assert (Hfail : (module_body (host_lacking ["distutils"] []) boot).1
                  = Raise (ModuleNotFoundError "distutils"))
    by (vm_compute; reflexivity).
  assert (Hin : "initialize_all" ∈ module_functions)
    by (unfold module_functions; set_solver).
  pose proof (module_body_import_failure (host_lacking ["distutils"] []) boot
                _ Hfail) as (_ & Hnames & Hoid).
  split; [ exact Hfail | ].
  split; [ exact (Hnames _ Hin) | exact Hoid ].
Defined.

(** X6. A successful evaluation of the module binds the four function
    names to four new function objects, each with the code of its own
    [def], and binds nothing besides these and the five imported names; in
    particular the inner [init_vectorize] and [init_guvectorize] are not
    module-level names. *)
Theorem module_body_bindings env w w' :
  module_body env w = (Ok tt, w') ->
  globals w' !! "init_jit" = Some (PyFunction code_init_jit (next_oid w))
  /\ globals w' !! "initialize_all"
     = Some (PyFunction code_initialize_all (1 + next_oid w))
  /\ globals w' !! "_initialize_ufunc"
     = Some (PyFunction code_initialize_ufunc (2 + next_oid w))
  /\ globals w' !! "_initialize_gufunc"
     = Some (PyFunction code_initialize_gufunc (3 + next_oid w))
  /\ next_oid w' = 4 + next_oid w
  /\ forall name,
       name ∉ module_functions ++ module_imports ->
       globals w' !! name = globals w !! name.
Proof.
  unfold module_functions, module_imports.
  run; intros H; inversion H; subst; clear H.
  repeat split; try (by simplify_map_eq).
  intros name Hnot. cbn [app] in Hnot.
  repeat (apply not_elem_of_cons in Hnot as [? Hnot]).
  by rewrite !lookup_insert_ne.
Qed.

Lemma module_body_bindings_witness :
  globals started !! "_initialize_gufunc"
  = Some (PyFunction code_initialize_gufunc (3 + next_oid boot))
  /\ next_oid started = 4 + next_oid boot
  /\ globals started !! "init_vectorize" = globals boot !! "init_vectorize".
Proof.
  assert (Hrun : module_body host_with_opencl boot = (Ok tt, started))
    by (vm_compute; reflexivity).
  assert (Hnot : "init_vectorize" ∉ module_functions ++ module_imports).
  { unfold module_functions, module_imports. cbn [app].
    repeat (apply not_elem_of_cons; split; [ discriminate | ]).
    apply not_elem_of_nil. }
  pose proof (module_body_bindings host_with_opencl boot started Hrun)
    as (_ & _ & _ & Hg & Hoid & Hframe).
  split; [ exact Hg | ].
  split; [ exact Hoid | exact (Hframe _ Hnot) ].
Defined.

(** ** Composition *)

Lemma registry_equiv_insert (m : gmap string PyObj) k a b :
  same_code a b -> registry_equiv (<[k := a]> m) (<[k := b]> m).
Proof.
  intros Hab j. destruct (decide (k = j)) as [-> | Hne].
  - rewrite !lookup_insert_eq. by constructor.
  - rewrite !lookup_insert_ne by done. apply registry_equiv_refl.
Qed.

(** X7. Importing the module and then calling [initialize_all], on a host
    where the registry resolves and both libraries load, succeeds: "dppy"
    is bound to the [init_jit] the import has just defined, the two
    libraries are resident after those already there, and invoking the
    entry gives exactly what resolving DPPyDispatcher gives. *)
Theorem import_then_initialize env w w1 reg :
  module_body env w = (Ok tt, w1) ->
  resolve_name env "numba.targets.registry" "dispatcher_registry" = Ok reg ->
  dlopen env "libdpglue.so" = None ->
  dlopen env "libOpenCL.so" = None ->
  exists w2,
    initialize_all env w1 = (Ok PyNone, w2)
    /\ dispatcher_ondemand w2
       = <["dppy" := PyFunction code_init_jit (next_oid w)]>
           (dispatcher_ondemand w)
    /\ loaded w2 = loaded w ++ ["libdpglue.so"; "libOpenCL.so"]
    /\ (invoke_ondemand env dispatcher_registry "dppy" w2).1
       = resolve_name env "numba.dppy.dispatcher" "DPPyDispatcher".
Proof.
  intros Hmod Hreg H1 H2.
  destruct (module_body_binds env w w1 Hmod) as [Hf [ll [_ Hll]]].
  pose proof (module_body_loaded env w) as Hloaded.
  pose proof (module_body_ondemand env w dispatcher_registry) as Hreg0.
  rewrite Hmod in Hloaded, Hreg0. cbn [snd ondemand] in Hloaded, Hreg0.
  rewrite (initialize_all_ok env w1 _ ll reg Hf Hll Hreg H1 H2).
  eexists. split; [ reflexivity | ].
  cbn [dispatcher_ondemand loaded]. rewrite Hloaded, Hreg0.
  split; [ reflexivity | ]. split; [ reflexivity | ].
  unfold invoke_ondemand, ondemand. cbn [dispatcher_ondemand].
  rewrite lookup_insert_eq, call_init_jit. apply import_from_outcome.
Qed.

Lemma import_then_initialize_witness :
  exists w2,
    initialize_all host_with_opencl started = (Ok PyNone, w2)
    /\ dispatcher_ondemand w2
       = <["dppy" := PyFunction code_init_jit (next_oid boot)]>
           (dispatcher_ondemand boot)
    /\ loaded w2 = loaded boot ++ ["libdpglue.so"; "libOpenCL.so"]
    /\ (invoke_ondemand host_with_opencl dispatcher_registry "dppy" w2).1
       = resolve_name host_with_opencl "numba.dppy.dispatcher"
           "DPPyDispatcher".
Proof.
  assert (Hrun : module_body host_with_opencl boot = (Ok tt, started))
    by (vm_compute; reflexivity).
  exact (import_then_initialize host_with_opencl boot started _ Hrun
           eq_refl eq_refl eq_refl).
Defined.

(** X8. The three registrations are independent of each other: whichever
    of two runs first, the registries end up the same.  With
    [initialize_all] they are literally equal; [_initialize_ufunc] and
    [_initialize_gufunc] in either order leave equal registries up to the
    identity of the two closures they create. *)
Theorem registrations_commute env w :
  (forall r,
     ondemand r (_initialize_ufunc env (initialize_all env w).2).2
     = ondemand r (initialize_all env (_initialize_ufunc env w).2).2)
  /\ (forall r,
        ondemand r (_initialize_gufunc env (initialize_all env w).2).2
        = ondemand r (initialize_all env (_initialize_gufunc env w).2).2)
  /\ (forall r,
        registry_equiv
          (ondemand r (_initialize_gufunc env (_initialize_ufunc env w).2).2)
          (ondemand r (_initialize_ufunc env (_initialize_gufunc env w).2).2)).
Proof.
  split; [ | split ].
  - intros r; destruct r; run; reflexivity.
  - intros r; destruct r; run; reflexivity.
  - intros r; destruct r; run;
      first [ apply registry_equiv_refl
            | apply registry_equiv_insert; exact eq_refl ].
Qed.

(** X9. No function of the file rebinds a module-level name, unloads a
    library, drops a trace entry or reuses the identity of a function
    object: the namespace is unchanged, the resident libraries and the
    trace only grow at the end, and the identity counter never decreases. *)
Theorem functions_preserve_process_state env code w :
  globals (body env code w).2 = globals w
  /\ loaded w `prefix_of` loaded (body env code w).2
  /\ trace w `prefix_of` trace (body env code w).2
  /\ next_oid w <= next_oid (body env code w).2.
Proof.
  split; [ apply body_globals | ].
  split; [ | split ]; destruct code; run;
    try lia; repeat apply prefix_app_r; reflexivity.
Qed.

(** X10. Each successful call of [_initialize_ufunc] (respectively
    [_initialize_gufunc]) registers a function object of its own: after a
    second call, "dppy" is bound to a different object than after the
    first. *)
Theorem vectorizer_factory_is_fresh env w :
  (forall v w1 v' w2,
     _initialize_ufunc env w = (Ok v, w1) ->
     _initialize_ufunc env w1 = (Ok v', w2) ->
     vectorize_ondemand w2 !! "dppy" ≠ vectorize_ondemand w1 !! "dppy")
  /\ (forall v w1 v' w2,
        _initialize_gufunc env w = (Ok v, w1) ->
        _initialize_gufunc env w1 = (Ok v', w2) ->
        guvectorize_ondemand w2 !! "dppy" ≠ guvectorize_ondemand w1 !! "dppy").
Proof.
  split; intros v w1 v' w2; run; intros H1 H2;
    inversion H1; subst; clear H1; inversion H2; subst; clear H2;
    rewrite !lookup_insert_eq; intros Heq; inversion Heq; lia.
Qed.

Lemma vectorizer_factory_is_fresh_witness :
  vectorize_ondemand
    (_initialize_ufunc host_with_opencl
       (_initialize_ufunc host_with_opencl started).2).2 !! "dppy"
  ≠ vectorize_ondemand (_initialize_ufunc host_with_opencl started).2
      !! "dppy".
Proof.
  assert (H1 : _initialize_ufunc host_with_opencl started
               = (Ok PyNone, (_initialize_ufunc host_with_opencl started).2))
    by (vm_compute; reflexivity).
  assert (H2 : _initialize_ufunc host_with_opencl
                 (_initialize_ufunc host_with_opencl started).2
               = (Ok PyNone,
                  (_initialize_ufunc host_with_opencl
                     (_initialize_ufunc host_with_opencl started).2).2))
    by (vm_compute; reflexivity).
  exact (proj1 (vectorizer_factory_is_fresh host_with_opencl started)
           _ _ _ _ H1 H2).
Defined.
